(** * A Result type for Python: [simple_monads.result] and [pyadt.result]

    Shallow embedding of the two modules [src/simple_monads/result.py] and
    [src/pyadt/result.py].  Python values live in one universe [pyval];
    exception instances, [Result] values and [Maybe] values are mutually
    defined with it.  Python code that may raise or have side effects is a
    computation in the monad [py]: a function from the state of the world
    to an [outcome] (normal return or raised exception) and a new world. *)

From Stdlib Require Import String List ZArith Bool Lia.
Import ListNotations.
Open Scope string_scope.

(** ** Classes

    Only the part of the class graph that [isinstance] looks at is kept: a
    class is [BaseException] or is declared by a [class name(base)]
    statement.  Classes are identified by their names, so the classes of
    the same name declared by the two modules are the same class here. *)

Inductive pyclass : Type :=
| BaseException
| Subclass (name : string) (base : pyclass).

(* builtins *)
Definition Exception : pyclass := Subclass "Exception" BaseException.
Definition KeyboardInterrupt : pyclass := Subclass "KeyboardInterrupt" BaseException.
Definition SystemExit : pyclass := Subclass "SystemExit" BaseException.
Definition ValueError : pyclass := Subclass "ValueError" Exception.
Definition KeyError : pyclass := Subclass "KeyError" Exception.

Fixpoint pyclass_eqb (c d : pyclass) : bool :=
  match c, d with
  | BaseException, BaseException => true
  | Subclass n b, Subclass n' b' => String.eqb n n' && pyclass_eqb b b'
  | _, _ => false
  end.

(** [issubclass(c, d)]: [d] is [c] or one of its ancestors. *)
Fixpoint issubclass (c d : pyclass) : bool :=
  pyclass_eqb c d ||
  match c with
  | BaseException => false
  | Subclass _ base => issubclass base d
  end.

(** ** Values *)

#[warnings="-register-all"]
Inductive pyval : Type :=
| PyNone
| PyBool (b : bool)
| PyInt (z : Z)
| PyStr (s : string)
| PyExn (x : exn)
| PyResult (r : Result)
| PyMaybe (m : Maybe)

(** An exception instance: its class, its [args], its [__cause__] (set by
    [raise ... from]) and the [err] attribute that [Propagation.__init__]
    assigns.  Tracebacks are not modelled. *)
with exn : Type :=
| MkExn (cls : pyclass) (args : list pyval) (cause : option exn)
        (err : option pyval)

(** The two frozen dataclasses [Success] and [Error], each with the one
    field [_held]. *)
with Result : Type :=
| Success (_held : pyval)
| Error (_held : pyval)

(** Modelled from the spec: the optional-value collaborator of module
    [.maybe], which is imported by [ok] and [err] but is not part of the
    sources: two variants, present(value) and absent. *)
with Maybe : Type :=
| Something (_held : pyval)
| Nothing.

Definition exn_cls (x : exn) : pyclass := let (c, _, _, _) := x in c.
Definition exn_args (x : exn) : list pyval := let (_, a, _, _) := x in a.
Definition exn_cause (x : exn) : option exn := let (_, _, c, _) := x in c.
Definition exn_err (x : exn) : option pyval := let (_, _, _, e) := x in e.

(** [isinstance(x, c)] for an exception instance. *)
Definition exn_isinstance (x : exn) (c : pyclass) : bool :=
  issubclass (exn_cls x) c.

(** [isinstance(v, Exception)] for any value: values that are not exception
    instances are instances of no exception class. *)
Definition isinstance_Exception (v : pyval) : option exn :=
  match v with
  | PyExn x => if exn_isinstance x Exception then Some x else None
  | _ => None
  end.

(** Truthiness of a string: the empty string is falsy. *)
Definition str_truthy (s : string) : bool :=
  negb (String.eqb s "").

(** [msg or default] for [msg : str | None]. *)
Definition msg_or (msg : option string) (default : string) : string :=
  match msg with
  | Some s => if str_truthy s then s else default
  | None => default
  end.

(** ** Computations *)

(** The observable state: a log of the side effects performed so far. *)
Definition world : Type := list string.

Inductive outcome (A : Type) : Type :=
| Returns (a : A)
| Raises (x : exn).
Arguments Returns {A} a.
Arguments Raises {A} x.

Definition py (A : Type) : Type := world -> outcome A * world.

Definition ret {A} (a : A) : py A := fun w => (Returns a, w).
Definition raise {A} (x : exn) : py A := fun w => (Raises x, w).
Definition bind {A B} (m : py A) (k : A -> py B) : py B :=
  fun w =>
    match m w with
    | (Returns a, w') => k a w'
    | (Raises x, w') => (Raises x, w')
    end.

(** [try: m  except catch as e: h e], where [catches x] decides whether the
    [except] clause matches. *)
Definition try_except {A} (m : py A) (catches : exn -> bool)
           (h : exn -> py A) : py A :=
  fun w =>
    match m w with
    | (Returns a, w') => (Returns a, w')
    | (Raises x, w') => if catches x then h x w' else (Raises x, w')
    end.

(** A side effect a test can look for afterwards. *)
Definition mark (label : string) : py pyval :=
  fun w => (Returns PyNone, label :: w).

Declare Scope py_scope.
Delimit Scope py_scope with py.
Notation "x <- m ;; k" := (bind m (fun x => k))
  (at level 61, m at next level, right associativity) : py_scope.
Notation "m ;;; k" := (bind m (fun _ => k))
  (at level 61, right associativity) : py_scope.
Open Scope py_scope.

(** Call arguments [*args, **kwargs]. *)
Record arguments : Type := MkArgs {
  args : list pyval;
  kwargs : list (string * pyval)
}.

Definition positional (l : list pyval) : arguments := MkArgs l [].

(** A callable returning values of type [R]. *)
Definition Callable (R : Type) : Type := arguments -> py R.

(** [cb(v)] and [cb()] *)
Definition call1 {R} (cb : Callable R) (v : pyval) : py R :=
  cb (positional [v]).
Definition call0 {R} (cb : Callable R) : py R :=
  cb (positional []).

(** The [except] clause's class or tuple of classes. *)
Inductive catch_set : Type :=
| CatchClass (c : pyclass)
| CatchTuple (cs : list pyclass).

Definition catch_matches (catch : catch_set) (x : exn) : bool :=
  match catch with
  | CatchClass c => exn_isinstance x c
  | CatchTuple cs => existsb (exn_isinstance x) cs
  end.

(** [getattr(e, 'err')] on an exception instance. *)
Definition AttributeError : pyclass := Subclass "AttributeError" Exception.

Definition getattr_err (e : exn) : py pyval :=
  match exn_err e with
  | Some v => ret v
  | None => raise (MkExn AttributeError
                         [PyStr "object has no attribute 'err'"] None None)
  end.

(** ** Module [simple_monads.result] *)

Module SimpleMonads.

(** [class UnwrapError(Exception)] *)
Definition UnwrapError : pyclass := Subclass "UnwrapError" Exception.

(** [class ErrorWrapper(Exception)] *)
Definition ErrorWrapper : pyclass := Subclass "ErrorWrapper" Exception.

(** [class Propagation(Generic[E], Exception)] *)
Definition Propagation : pyclass := Subclass "Propagation" Exception.

(** [UnwrapError(msg)], possibly raised [from] a cause. *)
Definition UnwrapError_new (msg : string) (cause : option exn) : exn :=
  MkExn UnwrapError [PyStr msg] cause None.

(** [ErrorWrapper(held)] *)
Definition ErrorWrapper_new (held : pyval) : exn :=
  MkExn ErrorWrapper [held] None None.

(** [Propagation.__init__]: the message goes to [Exception.__init__], the
    payload to the attribute [err]. *)
Definition Propagation_new (err : pyval) : exn :=
  MkExn Propagation
    [PyStr ("Uncaught Propogation, did you forget to decorate " ++
            "function with @simple_monads.result.stop?")]
    None (Some err).

(** *** [class Error] *)

Definition Error_bool (_held : pyval) : bool := false.

Definition Error_is_ok : bool := false.

Definition Error_is_err : bool := true.

Definition Error_unwrap (_held : pyval) (msg : option string) : py pyval :=
  let e := match isinstance_Exception _held with
           | Some x => x
           | None => ErrorWrapper_new _held
           end in
  raise (UnwrapError_new (msg_or msg "Attempted to unwrap an Error") (Some e)).

Definition Error_unwrap_or (_held fallback : pyval) : pyval := fallback.

Definition Error_unwrap_or_else (_held : pyval) (fallback : Callable pyval)
  : py pyval :=
  call0 fallback.

Definition Error_unwrap_err (_held : pyval) (msg : option string)
  : py pyval :=
  ret _held.

Definition Error_map (_held : pyval) (cb : Callable pyval) : py Result :=
  ret (Error _held).

Definition Error_map_err (_held : pyval) (cb : Callable pyval) : py Result :=
  v <- call1 cb _held ;; ret (Error v).

Definition Error_map_or (_held default : pyval) (cb : Callable pyval)
  : py pyval :=
  ret default.

Definition Error_map_or_else (_held : pyval) (default cb : Callable pyval)
  : py pyval :=
  call0 default.

Definition Error_and_then (_held : pyval) (cb : Callable Result)
  : py Result :=
  ret (Error _held).

Definition Error_or_else (_held : pyval) (cb : Callable Result)
  : py Result :=
  call1 cb _held.

Definition Error_err (_held : pyval) : Maybe := Something _held.

Definition Error_ok (_held : pyval) : Maybe := Nothing.

Definition Error_propagate (_held : pyval) : py pyval :=
  raise (Propagation_new _held).

(** *** [class Success] *)

Definition Success_bool (_held : pyval) : bool := true.

Definition Success_is_ok : bool := true.

Definition Success_is_err : bool := false.

Definition Success_unwrap (_held : pyval) (msg : option string)
  : py pyval :=
  ret _held.

Definition Success_unwrap_or (_held fallback : pyval) : pyval := _held.

Definition Success_unwrap_or_else (_held : pyval) (fallback : Callable pyval)
  : py pyval :=
  ret _held.

Definition Success_unwrap_err (_held : pyval) (msg : option string)
  : py pyval :=
  let msg := match msg with
             | None => "Attempted to unwrap the error from a Success"
             | Some s => s
             end in
  raise (UnwrapError_new msg None).

Definition Success_map (_held : pyval) (cb : Callable pyval) : py Result :=
  v <- call1 cb _held ;; ret (Success v).

Definition Success_map_err (_held : pyval) (cb : Callable pyval)
  : py Result :=
  ret (Success _held).

Definition Success_map_or (_held default : pyval) (cb : Callable pyval)
  : py pyval :=
  call1 cb _held.

Definition Success_map_or_else (_held : pyval) (default cb : Callable pyval)
  : py pyval :=
  call1 cb _held.

Definition Success_and_then (_held : pyval) (cb : Callable Result)
  : py Result :=
  call1 cb _held.

Definition Success_or_else (_held : pyval) (cb : Callable Result)
  : py Result :=
  ret (Success _held).

Definition Success_err (_held : pyval) : Maybe := Nothing.

Definition Success_ok (_held : pyval) : Maybe := Something _held.

Definition Success_propagate (_held : pyval) : py pyval :=
  ret _held.

(** *** Method calls [r.m(...)]: dispatch on the class of [r] *)

Definition bool_ (r : Result) : bool :=
  match r with Success v => Success_bool v | Error e => Error_bool e end.

Definition is_ok (r : Result) : bool :=
  match r with Success _ => Success_is_ok | Error _ => Error_is_ok end.

Definition is_err (r : Result) : bool :=
  match r with Success _ => Success_is_err | Error _ => Error_is_err end.

Definition unwrap (r : Result) (msg : option string) : py pyval :=
  match r with
  | Success v => Success_unwrap v msg
  | Error e => Error_unwrap e msg
  end.

Definition unwrap_or (r : Result) (fallback : pyval) : pyval :=
  match r with
  | Success v => Success_unwrap_or v fallback
  | Error e => Error_unwrap_or e fallback
  end.

Definition unwrap_or_else (r : Result) (fallback : Callable pyval)
  : py pyval :=
  match r with
  | Success v => Success_unwrap_or_else v fallback
  | Error e => Error_unwrap_or_else e fallback
  end.

Definition unwrap_err (r : Result) (msg : option string) : py pyval :=
  match r with
  | Success v => Success_unwrap_err v msg
  | Error e => Error_unwrap_err e msg
  end.

Definition map (r : Result) (cb : Callable pyval) : py Result :=
  match r with
  | Success v => Success_map v cb
  | Error e => Error_map e cb
  end.

Definition map_err (r : Result) (cb : Callable pyval) : py Result :=
  match r with
  | Success v => Success_map_err v cb
  | Error e => Error_map_err e cb
  end.

Definition map_or (r : Result) (default : pyval) (cb : Callable pyval)
  : py pyval :=
  match r with
  | Success v => Success_map_or v default cb
  | Error e => Error_map_or e default cb
  end.

Definition map_or_else (r : Result) (default cb : Callable pyval)
  : py pyval :=
  match r with
  | Success v => Success_map_or_else v default cb
  | Error e => Error_map_or_else e default cb
  end.

Definition and_then (r : Result) (cb : Callable Result) : py Result :=
  match r with
  | Success v => Success_and_then v cb
  | Error e => Error_and_then e cb
  end.

Definition or_else (r : Result) (cb : Callable Result) : py Result :=
  match r with
  | Success v => Success_or_else v cb
  | Error e => Error_or_else e cb
  end.

Definition err (r : Result) : Maybe :=
  match r with Success v => Success_err v | Error e => Error_err e end.

Definition ok (r : Result) : Maybe :=
  match r with Success v => Success_ok v | Error e => Error_ok e end.

Definition propagate (r : Result) : py pyval :=
  match r with
  | Success v => Success_propagate v
  | Error e => Error_propagate e
  end.

(** *** Decorators *)

(** The default of [wrap_result]'s parameter [catch]. *)
Definition default_catch : catch_set := CatchClass Exception.

(** [wrap_result(catch)(f)], the function [inner]. *)
Definition wrap_result (catch : catch_set) (f : Callable pyval)
  : Callable Result :=
  fun a =>
    try_except (v <- f a ;; ret (Success v))
               (catch_matches catch)
               (fun e => ret (Error (PyExn e))).

(** [unwrap_result(f)], the function [inner]. *)
Definition unwrap_result (f : Callable Result) : Callable pyval :=
  fun a =>
    result <- f a ;;
    if is_ok result then unwrap result None
    else
      err <- unwrap_err result None ;;
      match isinstance_Exception err with
      | Some x => raise x
      | None => raise (ErrorWrapper_new err)
      end.

(** [stop(f)], the function [inner]. *)
Definition stop (f : Callable pyval) : Callable Result :=
  fun a =>
    try_except (v <- f a ;; ret (Success v))
               (fun e => exn_isinstance e Propagation)
               (fun e => v <- getattr_err e ;; ret (Error v)).

End SimpleMonads.

(** ** Module [pyadt.result]

    The older copy of the module: no [Propagation], no [propagate] and no
    [stop]. *)

Module Pyadt.

(** [class UnwrapError(Exception)] *)
Definition UnwrapError : pyclass := Subclass "UnwrapError" Exception.

(** [class ErrorWrapper(Exception)] *)
Definition ErrorWrapper : pyclass := Subclass "ErrorWrapper" Exception.

(** [UnwrapError(msg)], possibly raised [from] a cause. *)
Definition UnwrapError_new (msg : string) (cause : option exn) : exn :=
  MkExn UnwrapError [PyStr msg] cause None.

(** [ErrorWrapper(held)] *)
Definition ErrorWrapper_new (held : pyval) : exn :=
  MkExn ErrorWrapper [held] None None.

(** *** [class Error] *)

Definition Error_bool (_held : pyval) : bool := false.

Definition Error_is_ok : bool := false.

Definition Error_is_err : bool := true.

Definition Error_unwrap (_held : pyval) (msg : option string) : py pyval :=
  let e := match isinstance_Exception _held with
           | Some x => x
           | None => ErrorWrapper_new _held
           end in
  raise (UnwrapError_new (msg_or msg "Attempted to unwrap an Error") (Some e)).

Definition Error_unwrap_or (_held fallback : pyval) : pyval := fallback.

Definition Error_unwrap_or_else (_held : pyval) (fallback : Callable pyval)
  : py pyval :=
  call0 fallback.

Definition Error_unwrap_err (_held : pyval) (msg : option string)
  : py pyval :=
  ret _held.

Definition Error_map (_held : pyval) (cb : Callable pyval) : py Result :=
  ret (Error _held).

Definition Error_map_err (_held : pyval) (cb : Callable pyval) : py Result :=
  v <- call1 cb _held ;; ret (Error v).

Definition Error_map_or (_held default : pyval) (cb : Callable pyval)
  : py pyval :=
  ret default.

Definition Error_map_or_else (_held : pyval) (default cb : Callable pyval)
  : py pyval :=
  call0 default.

Definition Error_and_then (_held : pyval) (cb : Callable Result)
  : py Result :=
  ret (Error _held).

Definition Error_or_else (_held : pyval) (cb : Callable Result)
  : py Result :=
  call1 cb _held.

Definition Error_err (_held : pyval) : Maybe := Something _held.

Definition Error_ok (_held : pyval) : Maybe := Nothing.

(** *** [class Success] *)

Definition Success_bool (_held : pyval) : bool := true.

Definition Success_is_ok : bool := true.

Definition Success_is_err : bool := false.

Definition Success_unwrap (_held : pyval) (msg : option string)
  : py pyval :=
  ret _held.

Definition Success_unwrap_or (_held fallback : pyval) : pyval := _held.

Definition Success_unwrap_or_else (_held : pyval) (fallback : Callable pyval)
  : py pyval :=
  ret _held.

Definition Success_unwrap_err (_held : pyval) (msg : option string)
  : py pyval :=
  let msg := match msg with
             | None => "Attempted to unwrap the error from a Success"
             | Some s => s
             end in
  raise (UnwrapError_new msg None).

Definition Success_map (_held : pyval) (cb : Callable pyval) : py Result :=
  v <- call1 cb _held ;; ret (Success v).

Definition Success_map_err (_held : pyval) (cb : Callable pyval)
  : py Result :=
  ret (Success _held).

Definition Success_map_or (_held default : pyval) (cb : Callable pyval)
  : py pyval :=
  call1 cb _held.

Definition Success_map_or_else (_held : pyval) (default cb : Callable pyval)
  : py pyval :=
  call1 cb _held.

Definition Success_and_then (_held : pyval) (cb : Callable Result)
  : py Result :=
  call1 cb _held.

Definition Success_or_else (_held : pyval) (cb : Callable Result)
  : py Result :=
  ret (Success _held).

Definition Success_err (_held : pyval) : Maybe := Nothing.

Definition Success_ok (_held : pyval) : Maybe := Something _held.

(** *** Method calls [r.m(...)]: dispatch on the class of [r] *)

Definition bool_ (r : Result) : bool :=
  match r with Success v => Success_bool v | Error e => Error_bool e end.

Definition is_ok (r : Result) : bool :=
  match r with Success _ => Success_is_ok | Error _ => Error_is_ok end.

Definition is_err (r : Result) : bool :=
  match r with Success _ => Success_is_err | Error _ => Error_is_err end.

Definition unwrap (r : Result) (msg : option string) : py pyval :=
  match r with
  | Success v => Success_unwrap v msg
  | Error e => Error_unwrap e msg
  end.

Definition unwrap_or (r : Result) (fallback : pyval) : pyval :=
  match r with
  | Success v => Success_unwrap_or v fallback
  | Error e => Error_unwrap_or e fallback
  end.

Definition unwrap_or_else (r : Result) (fallback : Callable pyval)
  : py pyval :=
  match r with
  | Success v => Success_unwrap_or_else v fallback
  | Error e => Error_unwrap_or_else e fallback
  end.

Definition unwrap_err (r : Result) (msg : option string) : py pyval :=
  match r with
  | Success v => Success_unwrap_err v msg
  | Error e => Error_unwrap_err e msg
  end.

Definition map (r : Result) (cb : Callable pyval) : py Result :=
  match r with
  | Success v => Success_map v cb
  | Error e => Error_map e cb
  end.

Definition map_err (r : Result) (cb : Callable pyval) : py Result :=
  match r with
  | Success v => Success_map_err v cb
  | Error e => Error_map_err e cb
  end.

Definition map_or (r : Result) (default : pyval) (cb : Callable pyval)
  : py pyval :=
  match r with
  | Success v => Success_map_or v default cb
  | Error e => Error_map_or e default cb
  end.

Definition map_or_else (r : Result) (default cb : Callable pyval)
  : py pyval :=
  match r with
  | Success v => Success_map_or_else v default cb
  | Error e => Error_map_or_else e default cb
  end.

Definition and_then (r : Result) (cb : Callable Result) : py Result :=
  match r with
  | Success v => Success_and_then v cb
  | Error e => Error_and_then e cb
  end.

Definition or_else (r : Result) (cb : Callable Result) : py Result :=
  match r with
  | Success v => Success_or_else v cb
  | Error e => Error_or_else e cb
  end.

Definition err (r : Result) : Maybe :=
  match r with Success v => Success_err v | Error e => Error_err e end.

Definition ok (r : Result) : Maybe :=
  match r with Success v => Success_ok v | Error e => Error_ok e end.

(** *** Decorators *)

(** The default of [wrap_result]'s parameter [catch]. *)
Definition default_catch : catch_set := CatchClass Exception.

(** [wrap_result(catch)(f)], the function [inner]. *)
Definition wrap_result (catch : catch_set) (f : Callable pyval)
  : Callable Result :=
  fun a =>
    try_except (v <- f a ;; ret (Success v))
               (catch_matches catch)
               (fun e => ret (Error (PyExn e))).

(** [unwrap_result(f)], the function [inner]. *)
Definition unwrap_result (f : Callable Result) : Callable pyval :=
  fun a =>
    result <- f a ;;
    if is_ok result then unwrap result None
    else
      err <- unwrap_err result None ;;
      match isinstance_Exception err with
      | Some x => raise x
      | None => raise (ErrorWrapper_new err)
      end.

End Pyadt.

(** ** The method surface of [Result]

    The methods that class [Result] of [simple_monads.result] declares,
    with [__bool__], as messages with their arguments; [send r m] is the
    call [r.m(...)] with its result injected into [pyval]. *)





(** Whether an optional value is present. *)
Definition is_present (m : Maybe) : bool :=
  match m with Something _ => true | Nothing => false end.

(** The annotation of [catch], [type[Exception] | tuple[type[Exception], ...]]:
    every class of the set derives from [Exception]. *)
Definition catch_well_typed (catch : catch_set) : bool :=
  match catch with
  | CatchClass c => issubclass c Exception
  | CatchTuple cs => forallb (fun c => issubclass c Exception) cs
  end.

(** The code that runs after a call returns, frame by frame up the stack:
    [run_frames m [k1; k2; ...]] runs [m], hands its value to the rest [k1]
    of the function that called it, whose value goes to the rest [k2] of
    its own caller, and so on.  None of the frames has a handler. *)
Fixpoint run_frames (m : py pyval) (ks : list (pyval -> py pyval))
  : py pyval :=
  match ks with
  | [] => m
  | k :: ks' => run_frames (bind m k) ks'
  end.

(** ** Callables used in the examples *)

Definition TypeError : pyclass := Subclass "TypeError" Exception.

(** [lambda x: x * 2] *)
Definition double : Callable pyval :=
  fun a =>
    match args a with
    | [PyInt z] => ret (PyInt (z * 2))
    | _ => raise (MkExn TypeError [PyStr "unsupported operand"] None None)
    end.

(** [lambda x: Success(x * 2)] *)
Definition double_ok : Callable Result :=
  fun a => v <- double a ;; ret (Success v).

(** A callable that counts its invocations: each call leaves [label] in
    the log before running [f]. *)
Definition counted {R} (label : string) (f : Callable R) : Callable R :=
  fun a => mark label ;;; f a.

(** A function whose body is [raise x]. *)
Definition raising {R} (x : exn) : Callable R :=
  fun _ => raise x.

(** A function whose body is [return v]. *)
Definition returning {R} (v : R) : Callable R :=
  fun _ => ret v.

Definition a_ValueError : exn := MkExn ValueError [PyStr "bad"] None None.

Definition a_KeyboardInterrupt : exn := MkExn KeyboardInterrupt [] None None.

Definition no_args : arguments := positional [].

(** ** Callables used to state the laws *)

(** A function of one positional parameter, [lambda x: x]. *)
Definition identity : Callable pyval :=
  fun a =>
    match args a with
    | [v] => ret v
    | _ => raise (MkExn TypeError [PyStr "wrong number of arguments"]
                        None None)
    end.

(** [lambda x: g(f(x))] *)
Definition compose {R} (f : Callable pyval) (g : Callable R) : Callable R :=
  fun a => v <- f a ;; call1 g v.

(** [lambda x: Success(f(x))] *)
Definition Success_of (f : Callable pyval) : Callable Result :=
  fun a => v <- f a ;; ret (Success v).

(** [lambda x: Error(f(x))] *)
Definition Error_of (f : Callable pyval) : Callable Result :=
  fun a => v <- f a ;; ret (Error v).

(** [lambda x: g(x).and_then(h)] *)
Definition and_then_after (g h : Callable Result) : Callable Result :=
  fun a => r <- g a ;; SimpleMonads.and_then r h.

(** [lambda x: g(x).or_else(h)] *)
Definition or_else_after (g h : Callable Result) : Callable Result :=
  fun a => r <- g a ;; SimpleMonads.or_else r h.

(** A function of one positional parameter [v] whose body is [k v]. *)
Definition unary (k : pyval -> py pyval) : Callable pyval :=
  fun a =>
    match args a with
    | [v] => k v
    | _ => raise (MkExn TypeError [PyStr "wrong number of arguments"]
                        None None)
    end.

(** A function that returns the [Result] of an inner call as a value. *)
Definition as_value (f : Callable Result) : Callable pyval :=
  fun a => r <- f a ;; ret (PyResult r).

(** An instance of [Propagation] that its [__init__] did not set up. *)
Definition bare_Propagation : exn :=
  MkExn SimpleMonads.Propagation [] None None.

(** ** [__repr__]

    [Error.__repr__] and [Success.__repr__] of [simple_monads.result]
    format the held value with [repr], which is taken as a parameter. *)

Section Repr.

Variable repr : pyval -> string.

Definition Error_repr (_held : pyval) : string :=
  "Error(" ++ repr _held ++ ")".

Definition Success_repr (_held : pyval) : string :=
  "Success(" ++ repr _held ++ ")".

Definition repr_Result (r : Result) : string :=
  match r with
  | Success v => Success_repr v
  | Error e => Error_repr e
  end.

End Repr.

(** * Properties *)

(** ** Classes and the monad *)

Lemma pyclass_eqb_refl (c : pyclass) : pyclass_eqb c c = true.
Proof.
  induction c as [|n b IH]; simpl; [reflexivity|].
  now rewrite String.eqb_refl, IH.
Qed.

Lemma pyclass_eqb_eq (c d : pyclass) : pyclass_eqb c d = true -> c = d.
Proof.
  revert d; induction c as [|n b IH]; intros [|n' b']; simpl;
    try discriminate; [reflexivity|].
  intros H. apply andb_true_iff in H as [Hn Hb].
  apply String.eqb_eq in Hn. now rewrite Hn, (IH _ Hb).
Qed.

Lemma issubclass_refl (c : pyclass) : issubclass c c = true.
Proof.
  destruct c; simpl; [reflexivity|].
  now rewrite String.eqb_refl, pyclass_eqb_refl.
Qed.

Lemma issubclass_step (n : string) (b d : pyclass) :
  issubclass (Subclass n b) d = pyclass_eqb (Subclass n b) d || issubclass b d.
Proof. reflexivity. Qed.

Lemma issubclass_trans (c d e : pyclass) :
  issubclass c d = true -> issubclass d e = true -> issubclass c e = true.
Proof.
  induction c as [|n b IH]; intros Hcd Hde.
  - destruct d; [exact Hde | discriminate Hcd].
  - rewrite issubclass_step in Hcd.
    apply orb_true_iff in Hcd as [Heq|Hb].
    + apply pyclass_eqb_eq in Heq. now subst d.
    + rewrite issubclass_step, (IH Hb Hde). apply orb_true_r.
Qed.

(** An exception caught by a well-typed [except] clause is an instance of
    [Exception]. *)
Lemma caught_is_Exception (catch : catch_set) (x : exn) :
  catch_well_typed catch = true ->
  catch_matches catch x = true ->
  exn_isinstance x Exception = true.
Proof.
  unfold exn_isinstance. destruct catch as [c|cs]; simpl; intros Hty Hm.
  - exact (issubclass_trans _ _ _ Hm Hty).
  - apply existsb_exists in Hm as (c & Hin & Hc).
    rewrite forallb_forall in Hty.
    exact (issubclass_trans _ _ _ Hc (Hty _ Hin)).
Qed.

Lemma bind_returns {A B} (m : py A) (k : A -> py B) w a w' :
  m w = (Returns a, w') -> bind m k w = k a w'.
Proof. unfold bind. now intros ->. Qed.

Lemma bind_raises {A B} (m : py A) (k : A -> py B) w x w' :
  m w = (Raises x, w') -> bind m k w = (Raises x, w').
Proof. unfold bind. now intros ->. Qed.

(** An exception crosses any number of frames without running their code. *)
Lemma run_frames_raises (ks : list (pyval -> py pyval)) :
  forall (m : py pyval) w x w',
    m w = (Raises x, w') -> run_frames m ks w = (Raises x, w').
Proof.
  induction ks as [|k ks IH]; simpl; intros m w x w' Hm; [exact Hm|].
  apply IH. now apply bind_raises.
Qed.

(** ** The combinators *)

(** C1.  Every combinator acts on the variant it is named for and passes the
    other variant through unchanged without invoking its callback: [map]
    and [and_then] act on [Success], [map_err] and [or_else] on [Error].
    On the other variant the result does not depend on the callback and
    the world is left as it was, so the callback never ran. *)
Theorem combinators_short_circuit :
  forall (v e : pyval) (f : Callable pyval) (g : Callable Result) (w : world),
    (forall u w', call1 f v w = (Returns u, w') ->
        SimpleMonads.map (Success v) f w = (Returns (Success u), w'))
    /\ SimpleMonads.map (Error e) f w = (Returns (Error e), w)
    /\ SimpleMonads.and_then (Success v) g w = call1 g v w
    /\ SimpleMonads.and_then (Error e) g w = (Returns (Error e), w)
    /\ (forall u w', call1 f e w = (Returns u, w') ->
        SimpleMonads.map_err (Error e) f w = (Returns (Error u), w'))
    /\ SimpleMonads.map_err (Success v) f w = (Returns (Success v), w)
    /\ SimpleMonads.or_else (Error e) g w = call1 g e w
    /\ SimpleMonads.or_else (Success v) g w = (Returns (Success v), w).
Proof.
  intros v e f g w. repeat split.
  - intros u w' Hf. simpl. unfold SimpleMonads.Success_map.
    now rewrite (bind_returns _ _ _ _ _ Hf).
  - intros u w' Hf. simpl. unfold SimpleMonads.Error_map_err.
    now rewrite (bind_returns _ _ _ _ _ Hf).
Qed.

(** A counting callback: on [Success] it runs once, on [Error] the counter
    is untouched. *)
Lemma combinators_short_circuit_witness :
  SimpleMonads.map (Success (PyInt 3)) (counted "f" double) []
    = (Returns (Success (PyInt 6)), ["f"])
  /\ SimpleMonads.map (Error (PyExn a_ValueError)) (counted "f" double) []
    = (Returns (Error (PyExn a_ValueError)), [])
  /\ SimpleMonads.map_err (Error (PyInt 3)) (counted "f" double) []
    = (Returns (Error (PyInt 6)), ["f"]).
Proof.
  destruct (combinators_short_circuit (PyInt 3) (PyExn a_ValueError)
              (counted "f" double) double_ok []) as (Hmap & Herr & _).
  destruct (combinators_short_circuit (PyInt 3) (PyInt 3)
              (counted "f" double) double_ok []) as (_ & _ & _ & _ & Hme & _).
  split; [apply Hmap; reflexivity|].
  split; [exact Herr|].
  apply Hme; reflexivity.
Defined.

(** C3.  Inspection, unwrapping with a fallback and truthiness of the two
    variants. *)
Theorem inspection_of_variants :
  forall (v e x : pyval) (msg : option string) (w : world),
    SimpleMonads.is_ok (Success v) = true
    /\ SimpleMonads.is_err (Success v) = false
    /\ SimpleMonads.unwrap (Success v) msg w = (Returns v, w)
    /\ SimpleMonads.unwrap_or (Success v) x = v
    /\ SimpleMonads.bool_ (Success v) = true
    /\ SimpleMonads.is_err (Error e) = true
    /\ SimpleMonads.is_ok (Error e) = false
    /\ SimpleMonads.unwrap_err (Error e) msg w = (Returns e, w)
    /\ SimpleMonads.unwrap_or (Error e) x = x
    /\ SimpleMonads.bool_ (Error e) = false.
Proof. intros; repeat split. Qed.

(** C5.  Exactly one of [r.ok()] and [r.err()] is present: [Success(v)]
    gives present(v) through [ok] and absent through [err], [Error(e)]
    the other way round. *)
Theorem ok_err_duality :
  (forall r : Result,
      xorb (is_present (SimpleMonads.ok r)) (is_present (SimpleMonads.err r))
      = true)
  /\ (forall v : pyval,
         SimpleMonads.ok (Success v) = Something v
         /\ SimpleMonads.err (Success v) = Nothing)
  /\ (forall e : pyval,
         SimpleMonads.err (Error e) = Something e
         /\ SimpleMonads.ok (Error e) = Nothing).
Proof.
  split; [intros [v|e]; reflexivity|].
  split; intros; split; reflexivity.
Qed.

(** C10.  An empty message is replaced by the default in [Error.unwrap],
    which tests the truthiness of [msg], and kept by [Success.unwrap_err],
    which only replaces [None]. *)
Theorem empty_message_asymmetry :
  forall (v e : pyval) (w : world),
    (exists x,
        SimpleMonads.unwrap (Error e) (Some "") w = (Raises x, w)
        /\ exn_cls x = SimpleMonads.UnwrapError
        /\ exn_args x = [PyStr "Attempted to unwrap an Error"])
    /\ (exists x,
           SimpleMonads.unwrap_err (Success v) (Some "") w = (Raises x, w)
           /\ exn_cls x = SimpleMonads.UnwrapError
           /\ exn_args x = [PyStr ""]).
Proof.
  intros v e w. split; eexists; repeat split.
Qed.

(** ** Propagation and the [stop] boundary *)

Lemma propagate_Error_raises (e : pyval) (w : world) :
  SimpleMonads.propagate (Error e) w
  = (Raises (SimpleMonads.Propagation_new e), w).
Proof. reflexivity. Qed.

Lemma stop_returns (f : Callable pyval) a w r w' :
  f a w = (Returns r, w') ->
  SimpleMonads.stop f a w = (Returns (Success r), w').
Proof.
  intros Hf. unfold SimpleMonads.stop, try_except.
  now rewrite (bind_returns _ _ _ _ _ Hf).
Qed.

Lemma stop_intercepts (f : Callable pyval) a w e w' :
  f a w = (Raises (SimpleMonads.Propagation_new e), w') ->
  SimpleMonads.stop f a w = (Returns (Error e), w').
Proof.
  intros Hf. unfold SimpleMonads.stop, try_except.
  now rewrite (bind_raises _ _ _ _ _ Hf).
Qed.





(** C9.  [Propagation] derives from [Exception], so a [wrap_result] with
    the default [catch] standing between a [propagate()] call and its
    [stop] boundary catches the signal: it returns [Error] holding the
    [Propagation] instance, and the [stop] boundary above sees a normal
    return instead of the signal. *)
Theorem wrap_result_intercepts_propagation :
  issubclass SimpleMonads.Propagation Exception = true
  /\ forall (e : pyval) (ks : list (pyval -> py pyval))
            (a : arguments) (w : world),
      let body : Callable pyval :=
        fun _ => run_frames (SimpleMonads.propagate (Error e)) ks in
      let caught := Error (PyExn (SimpleMonads.Propagation_new e)) in
      SimpleMonads.wrap_result SimpleMonads.default_catch body a w
      = (Returns caught, w)
      /\ SimpleMonads.stop
           (fun a =>
              r <- SimpleMonads.wrap_result SimpleMonads.default_catch body a ;;
              ret (PyResult r)) a w
         = (Returns (Success (PyResult caught)), w).
Proof.
  split; [reflexivity|].
  intros e ks a w body caught.
  assert (Hbody : body a w = (Raises (SimpleMonads.Propagation_new e), w))
    by (apply run_frames_raises, propagate_Error_raises).
  assert (Hwrap : SimpleMonads.wrap_result SimpleMonads.default_catch body a w
                  = (Returns caught, w)).
  { unfold SimpleMonads.wrap_result, try_except.
    now rewrite (bind_raises _ _ _ _ _ Hbody). }
  split; [exact Hwrap|].
  apply stop_returns. now rewrite (bind_returns _ _ _ _ _ Hwrap).
Qed.

(** ** Unwrapping the wrong variant *)





(** ** The decorators *)

Lemma wrap_result_returns catch (f : Callable pyval) a w x w' :
  f a w = (Returns x, w') ->
  SimpleMonads.wrap_result catch f a w = (Returns (Success x), w').
Proof.
  intros Hf. unfold SimpleMonads.wrap_result, try_except.
  now rewrite (bind_returns _ _ _ _ _ Hf).
Qed.

Lemma wrap_result_catches catch (f : Callable pyval) a w e w' :
  f a w = (Raises e, w') ->
  catch_matches catch e = true ->
  SimpleMonads.wrap_result catch f a w = (Returns (Error (PyExn e)), w').
Proof.
  intros Hf Hm. unfold SimpleMonads.wrap_result, try_except.
  now rewrite (bind_raises _ _ _ _ _ Hf), Hm.
Qed.

Lemma wrap_result_passes catch (f : Callable pyval) a w e w' :
  f a w = (Raises e, w') ->
  catch_matches catch e = false ->
  SimpleMonads.wrap_result catch f a w = (Raises e, w').
Proof.
  intros Hf Hm. unfold SimpleMonads.wrap_result, try_except.
  now rewrite (bind_raises _ _ _ _ _ Hf), Hm.
Qed.

Lemma unwrap_result_Success (g : Callable Result) a w x w' :
  g a w = (Returns (Success x), w') ->
  SimpleMonads.unwrap_result g a w = (Returns x, w').
Proof.
  intros Hg. unfold SimpleMonads.unwrap_result.
  now rewrite (bind_returns _ _ _ _ _ Hg).
Qed.

Lemma unwrap_result_Error_exn (g : Callable Result) a w y w' :
  g a w = (Returns (Error (PyExn y)), w') ->
  exn_isinstance y Exception = true ->
  SimpleMonads.unwrap_result g a w = (Raises y, w').
Proof.
  intros Hg Hy. unfold SimpleMonads.unwrap_result.
  rewrite (bind_returns _ _ _ _ _ Hg). simpl.
  unfold SimpleMonads.Error_unwrap_err, bind, ret; simpl.
  now rewrite Hy.
Qed.

Lemma unwrap_result_Error_other (g : Callable Result) a w e w' :
  g a w = (Returns (Error e), w') ->
  isinstance_Exception e = None ->
  SimpleMonads.unwrap_result g a w
  = (Raises (SimpleMonads.ErrorWrapper_new e), w').
Proof.
  intros Hg He. unfold SimpleMonads.unwrap_result.
  rewrite (bind_returns _ _ _ _ _ Hg). simpl.
  unfold SimpleMonads.Error_unwrap_err, bind, ret.
  now rewrite He.
Qed.

(** C6 as amended.  [wrap_result(catch)(f)] returns [Success(x)] when [f]
    returns [x], returns [Error(e)] when [f] raises an [e] that [catch]
    matches, and lets an [e] that [catch] does not match go on.  The
    default [catch] is [Exception]: it matches the failures that are
    instances of [Exception], and only those. *)
Theorem wrap_result_contract :
  forall (catch : catch_set) (f : Callable pyval) (a : arguments) (w : world),
    (forall x w', f a w = (Returns x, w') ->
        SimpleMonads.wrap_result catch f a w = (Returns (Success x), w'))
    /\ (forall e w', f a w = (Raises e, w') ->
        catch_matches catch e = true ->
        SimpleMonads.wrap_result catch f a w
        = (Returns (Error (PyExn e)), w'))
    /\ (forall e w', f a w = (Raises e, w') ->
        catch_matches catch e = false ->
        SimpleMonads.wrap_result catch f a w = (Raises e, w'))
    /\ (forall e, catch_matches SimpleMonads.default_catch e
                  = exn_isinstance e Exception).
Proof.
  intros catch f a w. repeat split.
  - apply wrap_result_returns.
  - apply wrap_result_catches.
  - apply wrap_result_passes.
Qed.

Lemma wrap_result_contract_witness :
  SimpleMonads.wrap_result SimpleMonads.default_catch double
    (positional [PyInt 3]) []
  = (Returns (Success (PyInt 6)), [])
  /\ SimpleMonads.wrap_result (CatchTuple [KeyError; ValueError])
       (raising a_ValueError) no_args []
     = (Returns (Error (PyExn a_ValueError)), [])
  /\ SimpleMonads.wrap_result (CatchClass KeyError)
       (raising a_ValueError) no_args []
     = (Raises a_ValueError, []).
Proof.
  split; [|split].
  - apply (proj1 (wrap_result_contract SimpleMonads.default_catch double
                    (positional [PyInt 3]) [])).
    reflexivity.
  - apply (proj1 (proj2 (wrap_result_contract
                    (CatchTuple [KeyError; ValueError])
                    (raising a_ValueError) no_args []))); reflexivity.
  - apply (proj1 (proj2 (proj2 (wrap_result_contract (CatchClass KeyError)
                    (raising a_ValueError) no_args [])))); reflexivity.
Defined.

(** C6 as stated fails at a function that raises [KeyboardInterrupt]: the
    default [catch] does not match it and the wrapped call raises it. *)
Lemma default_catch_misses_KeyboardInterrupt :
  catch_matches SimpleMonads.default_catch a_KeyboardInterrupt = false
  /\ SimpleMonads.wrap_result SimpleMonads.default_catch
       (raising a_KeyboardInterrupt) no_args []
     = (Raises a_KeyboardInterrupt, [])
  /\ ~ (forall e, catch_matches SimpleMonads.default_catch e = true).
Proof.
  split; [reflexivity|]. split; [reflexivity|].
  intros H. specialize (H a_KeyboardInterrupt). discriminate H.
Qed.

(** C7.  [unwrap_result(g)] returns [x] when [g] returns [Success(x)],
    raises [e] itself when [g] returns [Error(e)] with [e] an instance of
    [Exception], and raises [ErrorWrapper(e)] for any other [e].  It undoes
    [wrap_result]: unwrapping a wrapped [f] behaves as [f] does, for every
    [catch] its annotation allows; and wrapping an unwrapped [g] gives back
    the [Result] that [g] returns, when its error is an exception. *)
Theorem unwrap_result_contract :
  forall (g : Callable Result) (a : arguments) (w : world),
    (forall x w', g a w = (Returns (Success x), w') ->
        SimpleMonads.unwrap_result g a w = (Returns x, w'))
    /\ (forall y w', g a w = (Returns (Error (PyExn y)), w') ->
        exn_isinstance y Exception = true ->
        SimpleMonads.unwrap_result g a w = (Raises y, w'))
    /\ (forall e w', g a w = (Returns (Error e), w') ->
        isinstance_Exception e = None ->
        SimpleMonads.unwrap_result g a w
        = (Raises (SimpleMonads.ErrorWrapper_new e), w'))
    /\ (forall catch (f : Callable pyval),
        catch_well_typed catch = true ->
        SimpleMonads.unwrap_result (SimpleMonads.wrap_result catch f) a w
        = f a w)
    /\ (forall r w', g a w = (Returns r, w') ->
        (forall e, r = Error e -> isinstance_Exception e <> None) ->
        SimpleMonads.wrap_result SimpleMonads.default_catch
          (SimpleMonads.unwrap_result g) a w
        = (Returns r, w')).
Proof.
  intros g a w. repeat split.
  - apply unwrap_result_Success.
  - apply unwrap_result_Error_exn.
  - apply unwrap_result_Error_other.
  - intros catch f Hty.
    destruct (f a w) as [[x|e] w'] eqn:Hf.
    + apply unwrap_result_Success. now apply wrap_result_returns.
    + destruct (catch_matches catch e) eqn:Hm.
      * apply unwrap_result_Error_exn.
        -- now apply wrap_result_catches.
        -- exact (caught_is_Exception _ _ Hty Hm).
      * unfold SimpleMonads.unwrap_result.
        apply bind_raises. now apply wrap_result_passes.
  - intros [x|e] w' Hg Hr.
    + apply wrap_result_returns. now apply unwrap_result_Success.
    + destruct e as [| | | |y| |];
        try (exfalso; apply (Hr _ eq_refl); reflexivity).
      destruct (exn_isinstance y Exception) eqn:Hy.
      * apply wrap_result_catches; [|exact Hy].
        now apply unwrap_result_Error_exn.
      * exfalso. apply (Hr _ eq_refl). simpl. now rewrite Hy.
Qed.

Lemma unwrap_result_contract_witness :
  SimpleMonads.unwrap_result double_ok (positional [PyInt 3]) []
  = (Returns (PyInt 6), [])
  /\ SimpleMonads.unwrap_result (returning (Error (PyExn a_ValueError)))
       no_args []
     = (Raises a_ValueError, [])
  /\ SimpleMonads.unwrap_result (returning (Error (PyInt 5))) no_args []
     = (Raises (SimpleMonads.ErrorWrapper_new (PyInt 5)), [])
  /\ SimpleMonads.unwrap_result
       (SimpleMonads.wrap_result (CatchClass ValueError)
          (raising a_KeyboardInterrupt)) no_args []
     = raising a_KeyboardInterrupt no_args []
  /\ SimpleMonads.wrap_result SimpleMonads.default_catch
       (SimpleMonads.unwrap_result
          (returning (Error (PyExn a_ValueError)))) no_args []
     = (Returns (Error (PyExn a_ValueError)), []).
Proof.
  split; [|split; [|split; [|split]]].
  - apply (proj1 (unwrap_result_contract double_ok
                    (positional [PyInt 3]) [])).
    reflexivity.
  - apply (proj1 (proj2 (unwrap_result_contract
                    (returning (Error (PyExn a_ValueError))) no_args [])));
      reflexivity.
  - apply (proj1 (proj2 (proj2 (unwrap_result_contract
                    (returning (Error (PyInt 5))) no_args []))));
      reflexivity.
  - apply (proj1 (proj2 (proj2 (proj2 (unwrap_result_contract
                    double_ok no_args []))))).
    reflexivity.
  - apply (proj2 (proj2 (proj2 (proj2 (unwrap_result_contract
                    (returning (Error (PyExn a_ValueError))) no_args []))))).
    + reflexivity.
    + intros e He. injection He as <-. discriminate.
Defined.

(** ** The two modules *)

(** C8.  On the operations that both modules define, [pyadt.result] and
    [simple_monads.result] agree: for the same receiver, arguments and
    world, each operation gives the same outcome (the same value returned
    or the same exception raised) and leaves the same world. *)
Theorem modules_agree :
  forall (r : Result) (msg : option string) (x : pyval)
         (f d : Callable pyval) (g : Callable Result)
         (catch : catch_set) (a : arguments) (w : world),
    Pyadt.is_ok r = SimpleMonads.is_ok r
    /\ Pyadt.is_err r = SimpleMonads.is_err r
    /\ Pyadt.unwrap r msg w = SimpleMonads.unwrap r msg w
    /\ Pyadt.unwrap_or r x = SimpleMonads.unwrap_or r x
    /\ Pyadt.unwrap_or_else r f w = SimpleMonads.unwrap_or_else r f w
    /\ Pyadt.unwrap_err r msg w = SimpleMonads.unwrap_err r msg w
    /\ Pyadt.map r f w = SimpleMonads.map r f w
    /\ Pyadt.map_err r f w = SimpleMonads.map_err r f w
    /\ Pyadt.map_or r x f w = SimpleMonads.map_or r x f w
    /\ Pyadt.map_or_else r d f w = SimpleMonads.map_or_else r d f w
    /\ Pyadt.and_then r g w = SimpleMonads.and_then r g w
    /\ Pyadt.or_else r g w = SimpleMonads.or_else r g w
    /\ Pyadt.ok r = SimpleMonads.ok r
    /\ Pyadt.err r = SimpleMonads.err r
    /\ Pyadt.bool_ r = SimpleMonads.bool_ r
    /\ Pyadt.wrap_result catch f a w = SimpleMonads.wrap_result catch f a w
    /\ Pyadt.default_catch = SimpleMonads.default_catch
    /\ Pyadt.unwrap_result g a w = SimpleMonads.unwrap_result g a w.
Proof.
  intros r msg x f d g catch a w.
  repeat split; destruct r; reflexivity.
Qed.

(** * Further properties of [simple_monads.result] *)

(** Splits on the outcome of every callback call the goal is stuck on. *)
Ltac by_outcome :=
  repeat match goal with
         | |- context [match ?f (positional ?l) ?w with _ => _ end] =>
             destruct (f (positional l) w) as [[?|?] ?]
         end.

Ltac unfold_methods :=
  unfold SimpleMonads.map, SimpleMonads.map_err, SimpleMonads.map_or,
    SimpleMonads.map_or_else, SimpleMonads.and_then, SimpleMonads.or_else,
    SimpleMonads.unwrap_or_else, SimpleMonads.unwrap_or,
    SimpleMonads.Success_map, SimpleMonads.Error_map,
    SimpleMonads.Success_map_err, SimpleMonads.Error_map_err,
    SimpleMonads.Success_map_or, SimpleMonads.Error_map_or,
    SimpleMonads.Success_map_or_else, SimpleMonads.Error_map_or_else,
    SimpleMonads.Success_and_then, SimpleMonads.Error_and_then,
    SimpleMonads.Success_or_else, SimpleMonads.Error_or_else,
    SimpleMonads.Success_unwrap_or_else, SimpleMonads.Error_unwrap_or_else,
    SimpleMonads.Success_unwrap_or, SimpleMonads.Error_unwrap_or,
    compose, Success_of, Error_of, and_then_after, or_else_after,
    identity, returning, call0, call1, bind, ret, raise.

Ltac law := intros; unfold_methods; simpl; by_outcome; reflexivity.

(** ** The fallback family *)

(** X1.  [r.map_or(default, cb)] is [r.map(cb).unwrap_or(default)]: same
    outcome, same side effects. *)
Theorem map_or_is_map_then_unwrap_or :
  forall (r : Result) (default : pyval) (cb : Callable pyval) (w : world),
    SimpleMonads.map_or r default cb w
    = (r' <- SimpleMonads.map r cb ;;
       ret (SimpleMonads.unwrap_or r' default)) w.
Proof. intros [v|e]; law. Qed.

(** X2.  [r.map_or_else(default, cb)] is
    [r.map(cb).unwrap_or_else(default)], and [unwrap_or_else] with a thunk
    that returns [x] is [unwrap_or(x)]. *)
Theorem map_or_else_is_map_then_unwrap_or_else :
  forall (r : Result) (default cb : Callable pyval) (x : pyval) (w : world),
    SimpleMonads.map_or_else r default cb w
    = (r' <- SimpleMonads.map r cb ;;
       SimpleMonads.unwrap_or_else r' default) w
    /\ SimpleMonads.unwrap_or_else r (returning x) w
       = (Returns (SimpleMonads.unwrap_or r x), w).
Proof. intros [v|e]; split; law. Qed.

(** ** Laws of the combinators *)

(** X3.  [map] and [map_err] are functorial: mapping the identity returns
    the receiver, and mapping [f] then [g] is mapping their composition,
    with the callbacks run in the same order. *)
Theorem map_functor_laws :
  forall (r : Result) (f g : Callable pyval) (w : world),
    SimpleMonads.map r identity w = (Returns r, w)
    /\ SimpleMonads.map_err r identity w = (Returns r, w)
    /\ (r' <- SimpleMonads.map r f ;; SimpleMonads.map r' g) w
       = SimpleMonads.map r (compose f g) w
    /\ (r' <- SimpleMonads.map_err r f ;; SimpleMonads.map_err r' g) w
       = SimpleMonads.map_err r (compose f g) w.
Proof. intros [v|e]; repeat split; law. Qed.

(** X4.  [and_then] and [or_else] chain associatively and have the
    constructors as units: [r.and_then(Success)] and [r.or_else(Error)]
    return [r]; chaining [g] then [h] is chaining the function that calls
    [g] and chains [h] on its result. *)
Theorem chaining_laws :
  forall (r : Result) (g h : Callable Result) (w : world),
    SimpleMonads.and_then r (Success_of identity) w = (Returns r, w)
    /\ SimpleMonads.or_else r (Error_of identity) w = (Returns r, w)
    /\ (r' <- SimpleMonads.and_then r g ;; SimpleMonads.and_then r' h) w
       = SimpleMonads.and_then r (and_then_after g h) w
    /\ (r' <- SimpleMonads.or_else r g ;; SimpleMonads.or_else r' h) w
       = SimpleMonads.or_else r (or_else_after g h) w.
Proof. intros [v|e]; repeat split; law. Qed.

(** X5.  [map] is [and_then] with the result put back in [Success], and
    [map_err] is [or_else] with the result put back in [Error]. *)
Theorem map_is_and_then :
  forall (r : Result) (f : Callable pyval) (w : world),
    SimpleMonads.map r f w = SimpleMonads.and_then r (Success_of f) w
    /\ SimpleMonads.map_err r f w = SimpleMonads.or_else r (Error_of f) w.
Proof. intros [v|e]; split; law. Qed.

(** X6.  The ways of asking which variant a [Result] is agree: its
    truthiness is [is_ok], [is_err] is the negation, [ok()] is present
    exactly when [is_ok], [err()] exactly when [is_err]. *)
Theorem variant_tests_agree :
  forall r : Result,
    SimpleMonads.bool_ r = SimpleMonads.is_ok r
    /\ SimpleMonads.is_err r = negb (SimpleMonads.is_ok r)
    /\ is_present (SimpleMonads.ok r) = SimpleMonads.is_ok r
    /\ is_present (SimpleMonads.err r) = SimpleMonads.is_err r.
Proof. intros [v|e]; repeat split. Qed.

(** X7.  [map] and [map_err] never change the variant: when they return,
    the result is [Success] exactly when the receiver is; [map] leaves the
    error and [map_err] the value as they were. *)
Theorem map_keeps_variant :
  forall (r r' : Result) (f : Callable pyval) (w w' : world),
    (SimpleMonads.map r f w = (Returns r', w') ->
     SimpleMonads.is_ok r' = SimpleMonads.is_ok r
     /\ SimpleMonads.err r' = SimpleMonads.err r)
    /\ (SimpleMonads.map_err r f w = (Returns r', w') ->
        SimpleMonads.is_ok r' = SimpleMonads.is_ok r
        /\ SimpleMonads.ok r' = SimpleMonads.ok r).
Proof.
  intros [v|e] r' f w w'; split; unfold_methods; by_outcome;
    intros H; try discriminate H; injection H as <- _; split; reflexivity.
Qed.

Lemma map_keeps_variant_witness :
  SimpleMonads.is_ok (Success (PyInt 6)) = SimpleMonads.is_ok (Success (PyInt 3))
  /\ SimpleMonads.err (Success (PyInt 6)) = SimpleMonads.err (Success (PyInt 3)).
Proof.
  apply (proj1 (map_keeps_variant (Success (PyInt 3)) (Success (PyInt 6))
                  double [] [])).
  reflexivity.
Defined.

(** X8.  An exception raised by a callback is not turned into an [Error]:
    it leaves the combinator that called the callback as it is, with the
    side effects done so far. *)
Theorem callback_exceptions_pass :
  forall (v e x0 : pyval) (f d : Callable pyval) (g : Callable Result)
         (x : exn) (w w' : world),
    (call1 f v w = (Raises x, w') ->
     SimpleMonads.map (Success v) f w = (Raises x, w')
     /\ SimpleMonads.map_or (Success v) x0 f w = (Raises x, w')
     /\ SimpleMonads.map_or_else (Success v) d f w = (Raises x, w'))
    /\ (call1 g v w = (Raises x, w') ->
        SimpleMonads.and_then (Success v) g w = (Raises x, w'))
    /\ (call1 f e w = (Raises x, w') ->
        SimpleMonads.map_err (Error e) f w = (Raises x, w'))
    /\ (call1 g e w = (Raises x, w') ->
        SimpleMonads.or_else (Error e) g w = (Raises x, w'))
    /\ (call0 d w = (Raises x, w') ->
        SimpleMonads.unwrap_or_else (Error e) d w = (Raises x, w')
        /\ SimpleMonads.map_or_else (Error e) d f w = (Raises x, w')).
Proof.
  intros v e x0 f d g x w w'.
  repeat match goal with |- _ /\ _ => split end;
    intros Hcb; unfold call0, call1 in Hcb;
    repeat match goal with |- _ /\ _ => split end;
    unfold_methods; try exact Hcb; now rewrite Hcb.
Qed.

Lemma callback_exceptions_pass_witness :
  SimpleMonads.map (Success (PyInt 1)) (counted "f" (raising a_ValueError)) []
  = (Raises a_ValueError, ["f"])
  /\ SimpleMonads.map_or (Success (PyInt 1)) PyNone
       (counted "f" (raising a_ValueError)) []
     = (Raises a_ValueError, ["f"])
  /\ SimpleMonads.map_or_else (Success (PyInt 1)) double
       (counted "f" (raising a_ValueError)) []
     = (Raises a_ValueError, ["f"]).
Proof.
  apply (proj1 (callback_exceptions_pass (PyInt 1) PyNone PyNone
                  (counted "f" (raising a_ValueError)) double double_ok
                  a_ValueError [] ["f"])).
  reflexivity.
Defined.

(** ** Boundaries *)

(** X9.  No [Propagation] gets past a [stop] boundary: whatever [stop(f)]
    raises is not an instance of [Propagation]. *)
Theorem stop_never_raises_Propagation :
  forall (f : Callable pyval) (a : arguments) (w w' : world) (x : exn),
    SimpleMonads.stop f a w = (Raises x, w') ->
    exn_isinstance x SimpleMonads.Propagation = false.
Proof.
  intros f a w w' x. unfold SimpleMonads.stop, try_except, bind, ret.
  destruct (f a w) as [[r|y] w1]; [discriminate|].
  destruct (exn_isinstance y SimpleMonads.Propagation) eqn:Hy.
  - unfold getattr_err. destruct (exn_err y); unfold ret, raise;
      intros H; [discriminate H|].
    injection H as <- _. reflexivity.
  - intros H. injection H as <- _. exact Hy.
Qed.

Lemma stop_never_raises_Propagation_witness :
  exn_isinstance
    (MkExn AttributeError [PyStr "object has no attribute 'err'"] None None)
    SimpleMonads.Propagation = false.
Proof.
  apply (stop_never_raises_Propagation (raising bare_Propagation)
           no_args [] []).
  reflexivity.
Defined.

(** X10.  [propagate] under [stop] gives the [Result] back: for every
    [r], the function that returns [r.propagate()], wrapped by [stop],
    returns [r]. *)
Theorem stop_propagate_round_trip :
  forall (r : Result) (a : arguments) (w : world),
    SimpleMonads.stop (fun _ => SimpleMonads.propagate r) a w
    = (Returns r, w).
Proof. intros [v|e] a w; reflexivity. Qed.

(** X11.  [propagate] under [stop] is [and_then]: the function that takes
    [v = r.propagate()] and goes on with [k v], wrapped by [stop], does
    what [r.and_then] does with the [stop]-wrapped function of body [k]. *)
Theorem propagate_under_stop_is_and_then :
  forall (r : Result) (k : pyval -> py pyval) (a : arguments) (w : world),
    SimpleMonads.stop (fun _ => v <- SimpleMonads.propagate r ;; k v) a w
    = SimpleMonads.and_then r (SimpleMonads.stop (unary k)) w.
Proof. intros [v|e] k a w; reflexivity. Qed.

(** X12.  The innermost boundary absorbs the signal: when [body] raises
    the signal for [e], the code after an inner [stop(body)] call goes on
    with [Error(e)], and a [stop] or [wrap_result] boundary further out
    sees a normal return. *)
Theorem inner_stop_absorbs :
  forall (body : Callable pyval) (e : pyval) (catch : catch_set)
         (a : arguments) (w w' : world),
    body a w = (Raises (SimpleMonads.Propagation_new e), w') ->
    (forall (A : Type) (k : Result -> py A),
        (r <- SimpleMonads.stop body a ;; k r) w = k (Error e) w')
    /\ SimpleMonads.stop (as_value (SimpleMonads.stop body)) a w
       = (Returns (Success (PyResult (Error e))), w')
    /\ SimpleMonads.wrap_result catch (as_value (SimpleMonads.stop body)) a w
       = (Returns (Success (PyResult (Error e))), w').
Proof.
  intros body e catch a w w' Hb.
  pose proof (stop_intercepts _ _ _ _ _ Hb) as Hs.
  assert (Hv : as_value (SimpleMonads.stop body) a w
               = (Returns (PyResult (Error e)), w'))
    by (unfold as_value; now rewrite (bind_returns _ _ _ _ _ Hs)).
  split; [|split].
  - intros A k. now apply bind_returns.
  - now apply stop_returns.
  - now apply wrap_result_returns.
Qed.

Lemma inner_stop_absorbs_witness :
  SimpleMonads.stop
    (as_value (SimpleMonads.stop
                 (fun _ => SimpleMonads.propagate (Error (PyInt 5)))))
    no_args []
  = (Returns (Success (PyResult (Error (PyInt 5)))), []).
Proof.
  apply (proj1 (proj2 (inner_stop_absorbs
                  (fun _ => SimpleMonads.propagate (Error (PyInt 5)))
                  (PyInt 5) SimpleMonads.default_catch no_args [] []
                  eq_refl))).
Defined.

(** X13.  What [wrap_result] does tells what [f] did: it raises [x] only
    when [f] raised [x] and [catch] does not match it; it returns an
    [Error] only when [f] raised, and the [Error] holds that exception,
    which [catch] matches; it returns [Success(v)] only when [f] returned
    [v]. *)
Theorem wrap_result_outcomes :
  forall (catch : catch_set) (f : Callable pyval) (a : arguments)
         (w w' : world),
    (forall x, SimpleMonads.wrap_result catch f a w = (Raises x, w') ->
        f a w = (Raises x, w') /\ catch_matches catch x = false)
    /\ (forall v, SimpleMonads.wrap_result catch f a w
                  = (Returns (Error v), w') ->
        exists e, v = PyExn e /\ f a w = (Raises e, w')
                  /\ catch_matches catch e = true)
    /\ (forall v, SimpleMonads.wrap_result catch f a w
                  = (Returns (Success v), w') ->
        f a w = (Returns v, w')).
Proof.
  intros catch f a w w'.
  unfold SimpleMonads.wrap_result, try_except, bind, ret.
  destruct (f a w) as [[r|y] w1];
    [|destruct (catch_matches catch y) eqn:Hy];
    repeat match goal with |- _ /\ _ => split end;
    intros v H; try discriminate H.
  - now injection H as <- <-.
  - injection H as <- <-. now exists y.
  - injection H as <- <-. now split.
Qed.

Lemma wrap_result_outcomes_witness :
  @raising pyval a_KeyboardInterrupt no_args []
  = (Raises a_KeyboardInterrupt, [])
  /\ catch_matches SimpleMonads.default_catch a_KeyboardInterrupt = false.
Proof.
  apply (proj1 (wrap_result_outcomes SimpleMonads.default_catch
                  (raising a_KeyboardInterrupt) no_args [] [])).
  reflexivity.
Defined.

(** X14.  With an empty tuple as [catch] nothing is caught: the wrapped
    function returns [Success] or raises what [f] raises, and never
    returns an [Error]. *)
Theorem wrap_result_empty_tuple :
  forall (f : Callable pyval) (a : arguments) (w : world),
    SimpleMonads.wrap_result (CatchTuple []) f a w
    = (v <- f a ;; ret (Success v)) w
    /\ forall e w', SimpleMonads.wrap_result (CatchTuple []) f a w
                    <> (Returns (Error e), w').
Proof.
  intros f a w.
  unfold SimpleMonads.wrap_result, try_except, bind, ret; simpl.
  destruct (f a w) as [[r|y] w1]; split; try reflexivity;
    intros e w' H; discriminate H.
Qed.

(** X15.  Unwrapping the [Error] that [wrap_result] made raises
    [UnwrapError] from the very exception that [f] raised, never from an
    [ErrorWrapper], for every [catch] that its annotation allows. *)
Theorem unwrap_after_wrap_result :
  forall (catch : catch_set) (f : Callable pyval) (msg : option string)
         (a : arguments) (w w' : world) (e : exn),
    catch_well_typed catch = true ->
    f a w = (Raises e, w') ->
    catch_matches catch e = true ->
    (r <- SimpleMonads.wrap_result catch f a ;; SimpleMonads.unwrap r msg) w
    = (Raises (SimpleMonads.UnwrapError_new
                 (msg_or msg "Attempted to unwrap an Error") (Some e)), w').
Proof.
  intros catch f msg a w w' e Hty Hf Hm.
  rewrite (bind_returns _ _ _ _ _ (wrap_result_catches _ _ _ _ _ _ Hf Hm)).
  simpl. unfold SimpleMonads.Error_unwrap. simpl.
  now rewrite (caught_is_Exception _ _ Hty Hm).
Qed.

Lemma unwrap_after_wrap_result_witness :
  (r <- SimpleMonads.wrap_result (CatchClass ValueError)
          (raising a_ValueError) no_args ;;
   SimpleMonads.unwrap r None) []
  = (Raises (SimpleMonads.UnwrapError_new "Attempted to unwrap an Error"
               (Some a_ValueError)), []).
Proof.
  apply (unwrap_after_wrap_result (CatchClass ValueError)
           (raising a_ValueError) None no_args [] [] a_ValueError);
    reflexivity.
Defined.

Lemma msg_or_nonempty (msg : option string) (default : string) :
  default <> "" -> msg_or msg default <> "".
Proof.
  intros Hd. destruct msg as [s|]; simpl; [|exact Hd].
  unfold str_truthy. destruct (String.eqb s "") eqn:Hs; simpl; [exact Hd|].
  now apply String.eqb_neq.
Qed.

(** X16.  The [UnwrapError] of [Error(e).unwrap(msg)] always has a message
    that is not empty, which is [msg] when [msg] is not empty, and always
    has a cause that is an instance of [Exception], so that
    [raise ... from] is given what it accepts. *)
Theorem unwrap_error_is_well_formed :
  forall (e : pyval) (msg : option string) (w : world),
  exists (x c : exn) (m : string),
    SimpleMonads.unwrap (Error e) msg w = (Raises x, w)
    /\ exn_args x = [PyStr m]
    /\ m <> ""
    /\ (forall s, msg = Some s -> s <> "" -> m = s)
    /\ exn_cause x = Some c
    /\ exn_isinstance c Exception = true.
Proof.
  intros e msg w.
  eexists. eexists. eexists. split; [reflexivity|].
  split; [reflexivity|].
  split; [apply msg_or_nonempty; discriminate|].
  split.
  - intros s -> Hs. simpl. unfold str_truthy.
    apply String.eqb_neq in Hs. now rewrite Hs.
  - split; [reflexivity|].
    unfold isinstance_Exception.
    destruct e as [| | | |y| |]; try reflexivity.
    destruct (exn_isinstance y Exception) eqn:Hy; [exact Hy|reflexivity].
Qed.

(** X17.  When [g] returns, [unwrap_result(g)] returns only the value of a
    [Success], and raises only for an [Error]: either the held exception
    itself or an [ErrorWrapper] of the held value, in both cases an
    instance of [Exception], and in the world as [g] left it. *)
Theorem unwrap_result_outcomes :
  forall (g : Callable Result) (a : arguments) (w w1 : world) (r : Result),
    g a w = (Returns r, w1) ->
    (forall x w', SimpleMonads.unwrap_result g a w = (Returns x, w') ->
        r = Success x /\ w' = w1)
    /\ (forall x w', SimpleMonads.unwrap_result g a w = (Raises x, w') ->
        exists e, r = Error e /\ w' = w1
                  /\ exn_isinstance x Exception = true
                  /\ (e = PyExn x \/ x = SimpleMonads.ErrorWrapper_new e)).
Proof.
  intros g a w w1 r Hg. unfold SimpleMonads.unwrap_result.
  rewrite (bind_returns _ _ _ _ _ Hg).
  destruct r as [v|e]; simpl.
  - split; intros x w' H; [|discriminate H].
    now injection H as <- <-.
  - unfold SimpleMonads.Error_unwrap_err, bind, ret, raise.
    assert (Hw : exn_isinstance (SimpleMonads.ErrorWrapper_new e) Exception
                 = true) by reflexivity.
    destruct (isinstance_Exception e) as [y|] eqn:He;
      (split; intros x w' H; [discriminate H|]);
      injection H as <- <-; exists e.
    + destruct e as [| | | |z| |]; try discriminate He. simpl in He.
      destruct (exn_isinstance z Exception) eqn:Hz; [|discriminate He].
      injection He as <-. repeat split; auto.
    + repeat split; auto.
Qed.

Lemma unwrap_result_outcomes_witness :
  exists e, Error (PyInt 5) = Error e /\ [] = ([] : world)
            /\ exn_isinstance (SimpleMonads.ErrorWrapper_new (PyInt 5))
                 Exception = true
            /\ (e = PyExn (SimpleMonads.ErrorWrapper_new (PyInt 5))
                \/ SimpleMonads.ErrorWrapper_new (PyInt 5)
                   = SimpleMonads.ErrorWrapper_new e).
Proof.
  apply (proj2 (unwrap_result_outcomes (returning (Error (PyInt 5)))
                  no_args [] [] (Error (PyInt 5)) eq_refl)).
  reflexivity.
Defined.

(** X18.  Wrapping an unwrapped [g] does not give back an [Error] whose
    value is not an exception: the [Result] is [Error] of the
    [ErrorWrapper], which carries the value as its only argument. *)
Theorem wrap_after_unwrap_wraps_value :
  forall (g : Callable Result) (a : arguments) (w w' : world) (e : pyval),
    g a w = (Returns (Error e), w') ->
    isinstance_Exception e = None ->
    SimpleMonads.wrap_result SimpleMonads.default_catch
      (SimpleMonads.unwrap_result g) a w
    = (Returns (Error (PyExn (SimpleMonads.ErrorWrapper_new e))), w')
    /\ exn_args (SimpleMonads.ErrorWrapper_new e) = [e].
Proof.
  intros g a w w' e Hg He. split; [|reflexivity].
  apply wrap_result_catches; [|reflexivity].
  now apply unwrap_result_Error_other.
Qed.

Lemma wrap_after_unwrap_wraps_value_witness :
  SimpleMonads.wrap_result SimpleMonads.default_catch
    (SimpleMonads.unwrap_result (returning (Error (PyInt 5)))) no_args []
  = (Returns (Error (PyExn (SimpleMonads.ErrorWrapper_new (PyInt 5)))), [])
  /\ exn_args (SimpleMonads.ErrorWrapper_new (PyInt 5)) = [PyInt 5].
Proof.
  apply (wrap_after_unwrap_wraps_value (returning (Error (PyInt 5)))
           no_args [] [] (PyInt 5)); reflexivity.
Defined.

(** ** [__repr__] *)

Lemma length_append (s t : string) :
  String.length (s ++ t) = String.length s + String.length t.
Proof. induction s as [|c s IH]; simpl; [reflexivity|now rewrite IH]. Qed.

Lemma append_inv_tail (u : string) :
  forall s t : string, (s ++ u = t ++ u)%string -> s = t.
Proof.
  induction s as [|c s IH]; intros [|d t] H; simpl in H.
  - reflexivity.
  - apply (f_equal String.length) in H. simpl in H.
    rewrite length_append in H. lia.
  - apply (f_equal String.length) in H. simpl in H.
    rewrite length_append in H. lia.
  - injection H as -> H. now rewrite (IH _ H).
Qed.

(** X19.  The [repr] of a [Result] tells its variant and the [repr] of the
    value it holds: two results with the same [repr] are both [Success] or
    both [Error], and their held values have the same [repr]. *)
Theorem repr_tells_variant :
  forall (repr : pyval -> string) (r1 r2 : Result),
    repr_Result repr r1 = repr_Result repr r2 ->
    (exists v1 v2, r1 = Success v1 /\ r2 = Success v2 /\ repr v1 = repr v2)
    \/ (exists e1 e2, r1 = Error e1 /\ r2 = Error e2 /\ repr e1 = repr e2).
Proof.
  intros repr [v1|e1] [v2|e2] H; simpl in H;
    unfold Success_repr, Error_repr in H; simpl in H; try discriminate H.
  - left. exists v1, v2. repeat split.
    injection H as H. exact (append_inv_tail _ _ _ H).
  - right. exists e1, e2. repeat split.
    injection H as H. exact (append_inv_tail _ _ _ H).
Qed.

Lemma repr_tells_variant_witness :
  (exists v1 v2, Error (PyInt 5) = Success v1 /\ Error (PyInt 7) = Success v2
                 /\ (fun _ : pyval => "int") v1 = (fun _ : pyval => "int") v2)
  \/ (exists e1 e2, Error (PyInt 5) = Error e1 /\ Error (PyInt 7) = Error e2
                    /\ (fun _ : pyval => "int") e1
                       = (fun _ : pyval => "int") e2).
Proof.
  apply (repr_tells_variant (fun _ => "int") (Error (PyInt 5))
           (Error (PyInt 7))).
  reflexivity.
Defined.
